(** * train_ocr.py: the training orchestrator of the plate OCR model

    A shallow embedding of [src/train_ocr.py].  The script is glue code: it
    builds two transform pipelines, a model, a data module, a training
    wrapper, two callbacks, a logger and a trainer, creates the experiment
    directories and hands control to the trainer's [fit].

    - Objects built by library or collaborator constructors are records of
      the keyword arguments the script passes; a constructor call is total
      and leaves a [call_new] entry in the call log.
    - The process environment (working directory, directory tree, CUDA
      availability, shown warnings) is threaded through a state-and-error
      monad [M]; the call log records, in order, every effectful call that
      [main] itself makes.
    - Parts of the repository that are not in [src/] are parameters:
      [get_ocr_valid_transform_list] (module [transforms]), [PLATE_ALPHABET]
      (module [dataset]), the optimizer and scheduler configuration types
      (module [config_data]) and the keys logged by the training wrapper
      (module [model]).  The trainer's [fit] is a parameter as well. *)

From Stdlib Require Import ZArith Floats Ascii.
From stdpp Require Import gmap strings list fin_maps.

Set Warnings "-inexact-float,-register-all".

Open Scope Z_scope.
Local Open Scope string_scope.
Local Open Scope list_scope.
Local Open Scope stdpp_scope.

(** ** pathlib: pure paths (POSIX flavour) *)

(** [s.split(sep)] *)
Fixpoint split_on (sep : ascii) (s : string) : list string :=
  match s with
  | EmptyString => [EmptyString]
  | String c s' =>
      if Ascii.eqb c sep then EmptyString :: split_on sep s'
      else match split_on sep s' with
           | w :: ws => String c w :: ws
           | [] => [String c EmptyString]
           end
  end.

Record PurePath := mkPath { anchored : bool; parts : list string }.

Definition starts_with_slash (s : string) : bool :=
  match s with
  | String c _ => Ascii.eqb c "/"
  | EmptyString => false
  end.

Definition is_component (p : string) : bool :=
  negb (String.eqb p "") && negb (String.eqb p ".").

(** [pathlib.Path(s)]: empty and ["."] components are dropped, [".."] is
    kept, a leading slash anchors the path at the root (a leading double
    slash is read as the root too). *)
Definition Path (s : string) : PurePath :=
  {| anchored := starts_with_slash s;
     parts := List.filter is_component (split_on "/" s) |}.

(** [p / name] *)
Definition truediv (p : PurePath) (name : string) : PurePath :=
  let q := Path name in
  if anchored q then q
  else {| anchored := anchored p; parts := parts p ++ parts q |}.

Fixpoint join_slash (l : list string) : string :=
  match l with
  | [] => ""
  | [x] => x
  | x :: l' => x +:+ "/" +:+ join_slash l'
  end.

(** [str(p)] *)
Definition Path_str (p : PurePath) : string :=
  if anchored p then "/" +:+ join_slash (parts p)
  else match parts p with
       | [] => "."
       | l => join_slash l
       end.

(** ** The directory tree and the process environment *)

Inductive Node := File | Dir.

(** Absolute, normalised locations are lists of names below the root [[]]. *)
Abbreviation Location := (list string).
Abbreviation FS := (gmap (list string) Node).

Inductive exn :=
| FileNotFoundError
| NotADirectoryError
| FileExistsError
| Exception (name : string).

Definition is_dir (fs : FS) (p : Location) : bool :=
  match p with
  | [] => true
  | _ => match fs !! p with Some Dir => true | _ => false end
  end.

Definition is_file (fs : FS) (p : Location) : bool :=
  match fs !! p with Some File => true | _ => false end.

(** One step of path resolution from the location [cur]. *)
Definition step (cur : Location) (name : string) : Location :=
  if String.eqb name ".." then removelast cur else cur ++ [name].

(** The location a sequence of components leads to. *)
Definition locate (cur : Location) (ps : list string) : Location :=
  fold_left step ps cur.

(** The locations [mkdir(parents=True)] visits below [cur]. *)
Fixpoint visited (cur : Location) (ps : list string) : list Location :=
  match ps with
  | [] => []
  | p :: ps' =>
      if String.eqb p ".." then visited (removelast cur) ps'
      else (cur ++ [p]) :: visited (cur ++ [p]) ps'
  end.

(** [Path.mkdir(exist_ok=True, parents=True)] walking [ps] from [cur]: a
    missing directory is created, an existing one is entered, a regular
    file in the way raises.  Permissions and links are not modelled. *)
Fixpoint makedirs (fs : FS) (cur : Location) (ps : list string) : exn + FS :=
  match ps with
  | [] => inr fs
  | p :: ps' =>
      if String.eqb p ".." then makedirs fs (removelast cur) ps'
      else
        match fs !! (cur ++ [p]) with
        | Some File =>
            inl (match ps' with [] => FileExistsError | _ => NotADirectoryError end)
        | Some Dir => makedirs fs (cur ++ [p]) ps'
        | None => makedirs (<[cur ++ [p] := Dir]> fs) (cur ++ [p]) ps'
        end
  end.

Record Env := mkEnv {
  cwd : Location;                (* os.getcwd() *)
  original_cwd : Location;       (* hydra.utils.get_original_cwd() *)
  fs : FS;
  cuda_is_available : bool;      (* torch.cuda.is_available() *)
  warnings : list string         (* warnings shown so far *)
}.

(** Where a pure path starts for a process whose working directory is
    [cwd]. *)
Definition base (cwd : Location) (p : PurePath) : Location :=
  if anchored p then [] else cwd.

(** The location a pure path denotes for that process. *)
Definition resolve (cwd : Location) (p : PurePath) : Location :=
  locate (base cwd p) (parts p).

(** No regular file lies on the way to [p]. *)
Definition creatable (fs : FS) (cwd : Location) (p : PurePath) : bool :=
  forallb (fun l => negb (is_file fs l)) (visited (base cwd p) (parts p)).

(** Every directory on the way to [p], and [p] itself, exists already. *)
Definition existing (fs : FS) (cwd : Location) (p : PurePath) : bool :=
  forallb (is_dir fs) (visited (base cwd p) (parts p)).

(** ** Format templates *)

Inductive scan :=
| in_text
| in_name (name : string)
| in_spec (name spec : string).

Definition snoc (s : string) (c : ascii) : string := s +:+ String c "".

(** The replacement fields [{name}] and [{name:spec}] of a format
    template, in order, each with its format specification (brace escapes
    and conversions are not read). *)
Fixpoint scan_fields (st : scan) (s : string) : list (string * string) :=
  match s with
  | EmptyString => []
  | String c s' =>
      match st with
      | in_text =>
          if Ascii.eqb c "{" then scan_fields (in_name "") s'
          else scan_fields in_text s'
      | in_name n =>
          if Ascii.eqb c "}" then (n, "") :: scan_fields in_text s'
          else if Ascii.eqb c ":" then scan_fields (in_spec n "") s'
          else scan_fields (in_name (snoc n c)) s'
      | in_spec n sp =>
          if Ascii.eqb c "}" then (n, sp) :: scan_fields in_text s'
          else scan_fields (in_spec n (snoc sp c)) s'
      end
  end.

Definition replacement_fields (template : string) : list (string * string) :=
  scan_fields in_text template.

(** ** Configuration, library objects and the call log *)

Section Objects.

(** [ExtTransform]: the albumentations transforms this file does not name;
    [OptimizerConfig], [SchedulerConfig]: the nodes of [TrainConfig] declared
    in [config_data]. *)
Context {ExtTransform OptimizerConfig SchedulerConfig : Type}.

Record OCRConfig := mkOCRConfig {
  image_dir : string;
  train_batch_size : Z;
  valid_batch_size : Z
}.

Record TrainConfig := mkTrainConfig {
  seed : Z;
  ocr : OCRConfig;
  train_size : float;
  num_workers : Z;
  exp_dir : string;
  optimizer : OptimizerConfig;
  scheduler : SchedulerConfig;
  val_check_interval : Z;
  check_val_every_n_epoch : Z;
  flush_logs_every_n_steps : Z;
  fast_dev_run : bool;
  precision : Z;
  max_epochs : Z
}.

(** albumentations transforms, with the arguments the script gives them *)
Inductive Transform :=
| OneOf (transforms : list Transform)
| Perspective (fit_output : bool) (scale : float * float) (pad_val : Z * Z * Z)
| Affine (scale : list (string * (float * float))) (fit_output : bool) (p : float)
| ColorJitter (brightness contrast p : float)
| ISONoise (intensity : list Z) (p : float)
| MotionBlur (blur_limit : Z)
| RandomShadow (p : float)
| RandomSunFlare (src_radius : Z)
| Extern (t : ExtTransform).

(** [A.Compose(steps)] *)
Record Compose := A_Compose { steps : list Transform }.

(** [AugTransform(compose)] *)
Record AugTransform := mkAugTransform { compose : Compose }.

(** [CRNN(alphabet)] *)
Record CRNN := mkCRNN { alphabet : string }.

Record OCRDetectionDataModule := mkOCRDetectionDataModule {
  dm_image_dir : string;
  dm_train_batch_size : Z;
  dm_valid_batch_size : Z;
  dm_seed : Z;
  dm_train_size : float;
  dm_num_workers : Z;
  dm_train_transforms : AugTransform;
  dm_val_transforms : AugTransform
}.

Record OCRDetectorTrainer := mkOCRDetectorTrainer {
  wr_model : CRNN;
  wr_optimizer_config : OptimizerConfig;
  wr_scheduler_config : SchedulerConfig;
  wr_target_metric : string
}.

Record ModelCheckpoint := mkModelCheckpoint {
  monitor : string;
  dirpath : PurePath;
  filename : string;
  verbose : bool;
  save_last : bool;
  every_n_train_steps : Z;
  save_top_k : Z;
  mode : string;
  save_weights_only : bool
}.

Record LearningRateMonitor := mkLearningRateMonitor {
  logging_interval : string
}.

Record TensorBoardLogger := mkTensorBoardLogger { save_dir : string }.

Inductive Callback :=
| cb_checkpoint (c : ModelCheckpoint)
| cb_lr_monitor (l : LearningRateMonitor).

Record Trainer := mkTrainer {
  tr_amp_backend : string;
  tr_gpus : option Z;
  tr_logger : TensorBoardLogger;
  tr_auto_select_gpus : bool;
  tr_benchmark : bool;
  tr_check_val_every_n_epoch : Z;
  tr_flush_logs_every_n_steps : Z;
  tr_default_root_dir : string;
  tr_deterministic : bool;
  tr_fast_dev_run : bool;
  tr_progress_bar_refresh_rate : Z;
  tr_precision : Z;
  tr_max_epochs : Z;
  tr_val_check_interval : Z;
  tr_callbacks : list Callback
}.

Inductive Obj :=
| obj_CRNN (m : CRNN)
| obj_AugTransform (t : AugTransform)
| obj_OCRDetectionDataModule (d : OCRDetectionDataModule)
| obj_OCRDetectorTrainer (m : OCRDetectorTrainer)
| obj_ModelCheckpoint (c : ModelCheckpoint)
| obj_LearningRateMonitor (l : LearningRateMonitor)
| obj_TensorBoardLogger (l : TensorBoardLogger)
| obj_Trainer (t : Trainer).

(** The effectful calls of [main], as the call log records them. *)
Inductive Call :=
| call_chdir (path : Location)
| call_seed_everything (seed : Z)
| call_new (o : Obj)
| call_mkdir (path : PurePath)
| call_warn (message : string)
| call_fit (t : Trainer) (m : OCRDetectorTrainer) (d : OCRDetectionDataModule).

Record World := mkWorld { env : Env; calls : list Call }.

(** ** The monad of the script: state [World], errors [exn] *)

Definition M (A : Type) : Type := World -> (exn + A) * World.

Definition ret {A} (x : A) : M A := fun w => (inr x, w).

Definition bind {A B} (m : M A) (f : A -> M B) : M B :=
  fun w =>
    match m w with
    | (inr x, w') => f x w'
    | (inl e, w') => (inl e, w')
    end.

Definition raise {A} (e : exn) : M A := fun w => (inl e, w).

Definition log_call (c : Call) : M unit :=
  fun w => (inr tt, {| env := env w; calls := calls w ++ [c] |}).

Definition get_env : M Env := fun w => (inr (env w), w).

Definition put_env (e : Env) : M unit :=
  fun w => (inr tt, {| env := e; calls := calls w |}).

(** A constructor call: logged, total, returns the object. *)
Definition new {A} (inj : A -> Obj) (o : A) : M A :=
  bind (log_call (call_new (inj o))) (fun _ => ret o).

(** ** The library calls of the script *)

(** [hydra.utils.get_original_cwd()] *)
Definition get_original_cwd : M Location :=
  bind get_env (fun e => ret (original_cwd e)).

(** [os.chdir(path)] *)
Definition os_chdir (path : Location) : M unit :=
  bind (log_call (call_chdir path)) (fun _ =>
  bind get_env (fun e =>
  if is_dir (fs e) path then
    put_env {| cwd := path; original_cwd := original_cwd e; fs := fs e;
               cuda_is_available := cuda_is_available e;
               warnings := warnings e |}
  else if is_file (fs e) path then raise NotADirectoryError
  else raise FileNotFoundError)).

(** [pl.seed_everything(seed)] *)
Definition seed_everything (seed : Z) : M unit :=
  log_call (call_seed_everything seed).

(** [path.mkdir(exist_ok=True, parents=True)] *)
Definition Path_mkdir (path : PurePath) : M unit :=
  bind (log_call (call_mkdir path)) (fun _ =>
  bind get_env (fun e =>
  match makedirs (fs e) (base (cwd e) path) (parts path) with
  | inr fs' =>
      put_env {| cwd := cwd e; original_cwd := original_cwd e; fs := fs';
                 cuda_is_available := cuda_is_available e;
                 warnings := warnings e |}
  | inl x => raise x
  end)).

(** [torch.cuda.is_available()] *)
Definition torch_cuda_is_available : M bool :=
  bind get_env (fun e => ret (cuda_is_available e)).

(** [warnings.warn(message)] under the default filter: the warning is
    shown and the call returns. *)
Definition warnings_warn (message : string) : M unit :=
  bind (log_call (call_warn message)) (fun _ =>
  bind get_env (fun e =>
  put_env {| cwd := cwd e; original_cwd := original_cwd e; fs := fs e;
             cuda_is_available := cuda_is_available e;
             warnings := warnings e ++ [message] |})).

End Objects.

Arguments TrainConfig : clear implicits.
Arguments Transform : clear implicits.
Arguments Compose : clear implicits.
Arguments AugTransform : clear implicits.
Arguments OCRDetectionDataModule : clear implicits.
Arguments OCRDetectorTrainer : clear implicits.
Arguments Obj : clear implicits.
Arguments Call : clear implicits.
Arguments World : clear implicits.
Arguments M : clear implicits.

Declare Scope script_scope.
Delimit Scope script_scope with script.
Notation "x <- m ;; k" := (bind m (fun x => k))
  (at level 100, m at next level, right associativity) : script_scope.
Notation "m ;; k" := (bind m (fun _ => k))
  (at level 100, right associativity) : script_scope.

(** ** A concrete run, used to exercise the statements below *)

Definition sample_config : TrainConfig unit unit :=
  {| seed := 42;
     ocr := {| image_dir := "data/train";
               train_batch_size := 64;
               valid_batch_size := 128 |};
     train_size := 0.9%float;
     num_workers := 4;
     exp_dir := "exp/crnn";
     optimizer := tt;
     scheduler := tt;
     val_check_interval := 500;
     check_val_every_n_epoch := 1;
     flush_logs_every_n_steps := 100;
     fast_dev_run := false;
     precision := 32;
     max_epochs := 10 |}.

(** Hydra has moved the process to its output directory; the invocation
    directory exists and holds one regular file. *)
Definition sample_env (cuda : bool) : Env :=
  {| cwd := ["home"; "user"; "plates"; "outputs"];
     original_cwd := ["home"; "user"; "plates"];
     fs := <[ ["home"; "user"; "plates"; "outputs"] := Dir ]>
           (<[ ["home"; "user"; "plates"; "train_ocr.py"] := File ]>
           (<[ ["home"; "user"; "plates"] := Dir ]>
           (<[ ["home"; "user"] := Dir ]>
           (<[ ["home"] := Dir ]> ∅))));
     cuda_is_available := cuda;
     warnings := [] |}.

Definition sample_world (cuda : bool) : World string unit unit :=
  {| env := sample_env cuda; calls := [] |}.

Definition sample_valid_transform_list : list (Transform string) :=
  [Extern "Resize"; Extern "Normalize"; Extern "ToTensorV2"].

Definition sample_alphabet : string := "0123456789ABCEHKMOPTXY".

(** A training wrapper that logs a loss and an accuracy. *)
Definition sample_logged_keys (m : OCRDetectorTrainer unit unit) : list string :=
  ["train_loss"; "val_acc"].

(** A trainer whose [fit] returns at once and touches nothing. *)
Definition sample_fit (t : Trainer) (m : OCRDetectorTrainer unit unit)
    (d : OCRDetectionDataModule string) (e : Env) : (exn + unit) * Env :=
  (inr tt, e).


(** [exp] is a regular file in the invocation directory. *)
Definition sample_env_blocked : Env :=
  {| cwd := ["home"; "user"; "plates"; "outputs"];
     original_cwd := ["home"; "user"; "plates"];
     fs := <[ ["home"; "user"; "plates"; "exp"] := File ]> (fs (sample_env true));
     cuda_is_available := false;
     warnings := [] |}.

(** [exp/crnn] exists and [exp/crnn/logs] is a regular file. *)
Definition sample_env_logs_file : Env :=
  {| cwd := ["home"; "user"; "plates"; "outputs"];
     original_cwd := ["home"; "user"; "plates"];
     fs := <[ ["home"; "user"; "plates"; "exp"; "crnn"; "logs"] := File ]>
           (<[ ["home"; "user"; "plates"; "exp"; "crnn"] := Dir ]>
           (<[ ["home"; "user"; "plates"; "exp"] := Dir ]>
              (fs (sample_env true))));
     cuda_is_available := false;
     warnings := [] |}.

(** A trainer whose [fit] raises at once. *)
Definition sample_fit_raising (t : Trainer) (m : OCRDetectorTrainer unit unit)
    (d : OCRDetectionDataModule string) (e : Env) : (exn + unit) * Env :=
  (inl (Exception "RuntimeError"), e).

(** The sample configuration with an empty experiment directory. *)
Definition sample_config_here : TrainConfig unit unit :=
  {| seed := seed sample_config;
     ocr := ocr sample_config;
     train_size := train_size sample_config;
     num_workers := num_workers sample_config;
     exp_dir := "";
     optimizer := tt;
     scheduler := tt;
     val_check_interval := val_check_interval sample_config;
     check_val_every_n_epoch := check_val_every_n_epoch sample_config;
     flush_logs_every_n_steps := flush_logs_every_n_steps sample_config;
     fast_dev_run := fast_dev_run sample_config;
     precision := precision sample_config;
     max_epochs := max_epochs sample_config |}.

(** ** The script *)

Section Orchestrator.

Context {ExtTransform OptimizerConfig SchedulerConfig : Type}.

(** [transforms.get_ocr_valid_transform_list()]: the list it returns, the
    same at each call. *)
Variable get_ocr_valid_transform_list : list (Transform ExtTransform).

(** [dataset.PLATE_ALPHABET] *)
Variable PLATE_ALPHABET : string.

(** [pl.Trainer.fit]: what the blocking call does to the process
    environment and whether it raises. *)
Variable fit :
  Trainer -> OCRDetectorTrainer OptimizerConfig SchedulerConfig ->
  OCRDetectionDataModule ExtTransform -> Env -> (exn + unit) * Env.

Local Abbreviation Script := (M ExtTransform OptimizerConfig SchedulerConfig).

Local Open Scope script_scope.

Definition aug_transforms : list (Transform ExtTransform) :=
  [ OneOf [ Perspective false (0.015, 0.1)%float (255, 255, 255);
            Affine [("x", (0.2, 1.5)%float); ("y", (0.3, 1.5)%float)]
                   true 0.65%float ];
    ColorJitter 0.8%float 0.1%float 0.75%float;
    ISONoise [1; 1] 0.15%float;
    MotionBlur 10;
    RandomShadow 0.25%float;
    RandomSunFlare 20 ].

Definition get_train_transform : Script (AugTransform ExtTransform) :=
  new obj_AugTransform
    (mkAugTransform (A_Compose (aug_transforms ++ get_ocr_valid_transform_list))).

Definition get_valid_transform : Script (AugTransform ExtTransform) :=
  new obj_AugTransform
    (mkAugTransform (A_Compose get_ocr_valid_transform_list)).

Definition get_model : Script CRNN :=
  model <- new obj_CRNN (mkCRNN PLATE_ALPHABET) ;;
  ret model.

(** [trainer.fit(train_module, datamodule=data)] *)
Definition Trainer_fit (trainer : Trainer)
    (train_module : OCRDetectorTrainer OptimizerConfig SchedulerConfig)
    (data : OCRDetectionDataModule ExtTransform) : Script unit :=
  log_call (call_fit trainer train_module data) ;;
  e <- get_env ;;
  match fit trainer train_module data e with
  | (inr _, e') => put_env e'
  | (inl x, e') => (put_env e' ;; raise x)
  end.

Definition main (train_config : TrainConfig OptimizerConfig SchedulerConfig)
    : Script unit :=
  original <- get_original_cwd ;;
  os_chdir original ;;

  seed_everything (seed train_config) ;;

  model <- get_model ;;
  train_tranaforms <- get_train_transform ;;
  valid_trasnforms <- get_valid_transform ;;

  data <- new obj_OCRDetectionDataModule
    {| dm_image_dir := image_dir (ocr train_config);
       dm_train_batch_size := train_batch_size (ocr train_config);
       dm_valid_batch_size := valid_batch_size (ocr train_config);
       dm_seed := seed train_config;
       dm_train_size := train_size train_config;
       dm_num_workers := num_workers train_config;
       dm_train_transforms := train_tranaforms;
       dm_val_transforms := valid_trasnforms |} ;;

  let exp_dir := Path (exp_dir train_config) in

  let checkpoint_dir := truediv exp_dir "checkpoint" in
  Path_mkdir checkpoint_dir ;;

  let target_metric_name := "12" in

  train_module <- new obj_OCRDetectorTrainer
    {| wr_model := model;
       wr_optimizer_config := optimizer train_config;
       wr_scheduler_config := scheduler train_config;
       wr_target_metric := target_metric_name |} ;;

  checkpoint_callback <- new obj_ModelCheckpoint
    {| monitor := target_metric_name;
       dirpath := checkpoint_dir;
       filename := "{step}-{" +:+ target_metric_name +:+ ":.4f}";
       verbose := true;
       save_last := true;
       every_n_train_steps := val_check_interval train_config + 1;
       save_top_k := 2;
       mode := "max";
       save_weights_only := false |} ;;

  lr_monitor <- new obj_LearningRateMonitor {| logging_interval := "step" |} ;;

  let log_dir := truediv exp_dir "logs" in
  Path_mkdir log_dir ;;

  logger <- new obj_TensorBoardLogger {| save_dir := Path_str log_dir |} ;;

  available <- torch_cuda_is_available ;;
  let gpus := if available then Some (-1) else None in

  match gpus with
  | None =>
      warnings_warn
        "GPU is not available. Try train on CPU. It may will bew very slow"
  | Some _ => ret tt
  end ;;

  trainer <- new obj_Trainer
    {| tr_amp_backend := "native";
       tr_gpus := gpus;
       tr_logger := logger;
       tr_auto_select_gpus := true;
       tr_benchmark := true;
       tr_check_val_every_n_epoch := check_val_every_n_epoch train_config;
       tr_flush_logs_every_n_steps := flush_logs_every_n_steps train_config;
       tr_default_root_dir := Path_str exp_dir;
       tr_deterministic := false;
       tr_fast_dev_run := fast_dev_run train_config;
       tr_progress_bar_refresh_rate := 5;
       tr_precision := precision train_config;
       tr_max_epochs := max_epochs train_config;
       tr_val_check_interval := val_check_interval train_config;
       tr_callbacks := [cb_checkpoint checkpoint_callback;
                        cb_lr_monitor lr_monitor] |} ;;

  Trainer_fit trainer train_module data.

(** The exit status of the process: 0 when [main] returns, 1 when an
    exception reaches the top level. *)
Definition exit_status {A} (r : exn + A) : Z :=
  match r with inr _ => 0 | inl _ => 1 end.


(** ** Vocabulary of the statements *)

(** The two directories of the experiment tree, as [main] names them. *)
Definition checkpoint_dir
    (train_config : TrainConfig OptimizerConfig SchedulerConfig) : PurePath :=
  truediv (Path (exp_dir train_config)) "checkpoint".

Definition log_dir
    (train_config : TrainConfig OptimizerConfig SchedulerConfig) : PurePath :=
  truediv (Path (exp_dir train_config)) "logs".

(** A run starts in the environment Hydra hands over, with an empty log. *)
Definition start (e : Env) : World ExtTransform OptimizerConfig SchedulerConfig :=
  {| env := e; calls := [] |}.

(** The environment lets the set-up go through: the invocation directory
    is a directory and no regular file lies on the way to the two
    directories of the experiment tree. *)
Definition setup_ok (train_config : TrainConfig OptimizerConfig SchedulerConfig)
    (e : Env) : bool :=
  is_dir (fs e) (original_cwd e)
  && creatable (fs e) (original_cwd e) (checkpoint_dir train_config)
  && creatable (fs e) (original_cwd e) (log_dir train_config).

Definition is_seed_call (c : Call ExtTransform OptimizerConfig SchedulerConfig)
    : bool :=
  match c with call_seed_everything _ => true | _ => false end.

Definition is_warn_call (c : Call ExtTransform OptimizerConfig SchedulerConfig)
    : bool :=
  match c with call_warn _ => true | _ => false end.

Definition is_fit_call (c : Call ExtTransform OptimizerConfig SchedulerConfig)
    : bool :=
  match c with call_fit _ _ _ => true | _ => false end.

(** A step that the training pipeline gets from the augmentation list and
    that is not one of the shared preprocessing steps. *)
Definition augmentation_only (s : Transform ExtTransform) : Prop :=
  In s aug_transforms /\ ~ In s get_ocr_valid_transform_list.

(** Training starts only with every monitored checkpoint metric among the
    keys the training wrapper logs: what an assertion placed before [fit]
    would enforce. *)
Definition guards_metric_mismatch
    (logged_keys : OCRDetectorTrainer OptimizerConfig SchedulerConfig -> list string)
    (train_config : TrainConfig OptimizerConfig SchedulerConfig) (e : Env) : Prop :=
  forall tr m d c,
    In (call_fit tr m d) (calls (snd (main train_config (start e)))) ->
    In (cb_checkpoint c) (tr_callbacks tr) ->
    In (monitor c) (logged_keys m).
(** No slash occurs in [s]. *)
Fixpoint no_slash (s : string) : bool :=
  match s with
  | EmptyString => true
  | String c s' => negb (Ascii.eqb c "/") && no_slash s'
  end.


(** Every component of [p] is a name: not empty, not ["."], without a
    slash. *)
Definition proper (p : PurePath) : bool :=
  forallb (fun n => is_component n && no_slash n) (parts p).

(** * Properties *)

(** ** The directory tree under [makedirs] *)

Section Makedirs.
Implicit Types (fs : FS) (cur l : Location) (ps : list string).

Lemma is_dir_lookup fs l : fs !! l = Some Dir -> is_dir fs l = true.
Proof. intros H. destruct l; [reflexivity|]. unfold is_dir. now rewrite H. Qed.

Lemma is_file_insert_dir fs k l :
  fs !! k = None -> is_file (<[k := Dir]> fs) l = is_file fs l.
Proof.
  intros Hk. unfold is_file. destruct (decide (k = l)) as [->|Hne].
  - now rewrite lookup_insert_eq, Hk.
  - now rewrite lookup_insert_ne.
Qed.

Lemma makedirs_frame ps : forall fs cur fs',
  makedirs fs cur ps = inr fs' ->
  forall l, fs' !! l = fs !! l \/ (fs !! l = None /\ fs' !! l = Some Dir).
Proof.
  induction ps as [|p ps IH]; intros fs cur fs' H l; simpl in H.
  - injection H as <-. now left.
  - destruct (String.eqb p ".."); [now apply (IH _ _ _ H)|].
    destruct (fs !! (cur ++ [p])) as [[|]|] eqn:E; [discriminate| |].
    + now apply (IH _ _ _ H).
    + destruct (IH _ _ _ H l) as [H1|[H1 H2]].
      * destruct (decide (cur ++ [p] = l)) as [<-|Hne].
        -- rewrite lookup_insert_eq in H1. now right.
        -- rewrite lookup_insert_ne in H1 by assumption. now left.
      * destruct (decide (cur ++ [p] = l)) as [<-|Hne].
        -- now rewrite lookup_insert_eq in H1.
        -- rewrite lookup_insert_ne in H1 by assumption. now right.
Qed.

Lemma makedirs_creatable ps : forall fs cur,
  forallb (fun l => negb (is_file fs l)) (visited cur ps) = true ->
  exists fs', makedirs fs cur ps = inr fs'.
Proof.
  induction ps as [|p ps IH]; intros fs cur H; simpl in *.
  - now exists fs.
  - destruct (String.eqb p ".."); [now apply IH|].
    simpl in H. apply andb_prop in H as [H1 H2].
    unfold is_file in H1.
    destruct (fs !! (cur ++ [p])) as [[|]|] eqn:E; [discriminate| |].
    + now apply IH.
    + apply IH. apply forallb_forall. intros l Hl.
      rewrite is_file_insert_dir by assumption.
      now apply (proj1 (forallb_forall _ _) H2).
Qed.

Lemma makedirs_visited ps : forall fs cur fs',
  makedirs fs cur ps = inr fs' ->
  forall l, In l (visited cur ps) -> fs' !! l = Some Dir.
Proof.
  induction ps as [|p ps IH]; intros fs cur fs' H l Hl; simpl in *.
  - contradiction.
  - destruct (String.eqb p ".."); [now apply (IH _ _ _ H)|].
    destruct Hl as [<-|Hl].
    + destruct (fs !! (cur ++ [p])) as [[|]|] eqn:E; [discriminate| |].
      * destruct (makedirs_frame _ _ _ _ H (cur ++ [p])) as [H1|[H1 _]]; congruence.
      * destruct (makedirs_frame _ _ _ _ H (cur ++ [p])) as [H1|[H1 _]];
          rewrite lookup_insert_eq in H1; congruence.
    + destruct (fs !! (cur ++ [p])) as [[|]|] eqn:E; [discriminate| |];
        now apply (IH _ _ _ H).
Qed.

Lemma makedirs_existing ps : forall fs cur,
  forallb (is_dir fs) (visited cur ps) = true -> makedirs fs cur ps = inr fs.
Proof.
  induction ps as [|p ps IH]; intros fs cur H; simpl in *.
  - reflexivity.
  - destruct (String.eqb p ".."); [now apply IH|].
    simpl in H. apply andb_prop in H as [H1 H2].
    unfold is_dir in H1. destruct (cur ++ [p]) eqn:Ecp.
    + now destruct cur.
    + rewrite <- Ecp in *. destruct (fs !! (cur ++ [p])) as [[|]|]; try discriminate.
      now apply IH.
Qed.

Lemma visited_last cur ps n :
  String.eqb n ".." = false ->
  In (locate cur ps ++ [n]) (visited cur (ps ++ [n])).
Proof.
  intros Hn. revert cur. induction ps as [|p ps IH]; intros cur; simpl.
  - rewrite Hn. now left.
  - unfold step. destruct (String.eqb p ".."); [apply IH|]. right. apply IH.
Qed.

Lemma creatable_frame fs cur ps fs' (L : list Location) :
  makedirs fs cur ps = inr fs' ->
  forallb (fun l => negb (is_file fs l)) L = true ->
  forallb (fun l => negb (is_file fs' l)) L = true.
Proof.
  intros H HL. apply forallb_forall. intros l Hl.
  pose proof (proj1 (forallb_forall _ _) HL l Hl) as Hf.
  unfold is_file in *.
  destruct (makedirs_frame _ _ _ _ H l) as [->|[_ ->]]; [exact Hf|reflexivity].
Qed.

Lemma makedirs_keeps_dir fs cur ps fs' l :
  makedirs fs cur ps = inr fs' -> fs !! l = Some Dir -> fs' !! l = Some Dir.
Proof.
  intros H Hl. destruct (makedirs_frame _ _ _ _ H l) as [->|[_ ->]]; trivial.
Qed.


Lemma visited_nonempty ps : forall cur l, In l (visited cur ps) -> l <> [].
Proof.
  induction ps as [|q qs IH]; simpl; intros cur l; [tauto|].
  destruct (String.eqb q ".."); [apply IH|].
  intros [<-|Hl]; [now destruct cur | now apply (IH _ _ Hl)].
Qed.

Lemma existing_creatable fs cwd p :
  existing fs cwd p = true -> creatable fs cwd p = true.
Proof.
  unfold existing, creatable. intros H. apply forallb_forall. intros l Hl.
  pose proof (proj1 (forallb_forall _ _) H l Hl) as Hd.
  pose proof (visited_nonempty _ _ _ Hl) as Hne.
  unfold is_dir in Hd. unfold is_file. destruct l; [congruence|].
  now destruct (fs !! (s :: l)) as [[|]|].
Qed.

Lemma truediv_child (q : PurePath) :
  truediv q "checkpoint"
  = {| anchored := anchored q; parts := parts q ++ ["checkpoint"] |}
  /\ truediv q "logs"
  = {| anchored := anchored q; parts := parts q ++ ["logs"] |}.
Proof. split; reflexivity. Qed.

Lemma locate_snoc cur ps n : locate cur (ps ++ [n]) = step (locate cur ps) n.
Proof. unfold locate. now rewrite fold_left_app. Qed.

(** A directory made as the last component of a path is where the path
    resolves to. *)
Lemma mkdir_child fs cwd (q : PurePath) n fs' :
  String.eqb n ".." = false ->
  makedirs fs (base cwd q) (parts q ++ [n]) = inr fs' ->
  fs' !! (locate (base cwd q) (parts q ++ [n])) = Some Dir.
Proof.
  intros Hn H. apply (makedirs_visited _ _ _ _ H).
  rewrite locate_snoc. unfold step. rewrite Hn. now apply visited_last.
Qed.

Lemma mkdir_makes fs cwd (q : PurePath) n fs' :
  String.eqb n ".." = false ->
  truediv q n = {| anchored := anchored q; parts := parts q ++ [n] |} ->
  makedirs fs (base cwd (truediv q n)) (parts (truediv q n)) = inr fs' ->
  fs' !! resolve cwd (truediv q n) = Some Dir.
Proof.
  intros Hn ->. unfold resolve, base. cbn [anchored parts].
  now apply mkdir_child.
Qed.

End Makedirs.

(** ** One step of the script at a time *)

Section Steps.
Context {A B : Type} (f : A -> Script B) (g : unit -> Script B)
        (w : World ExtTransform OptimizerConfig SchedulerConfig).

Lemma bind_ret x : bind (ret x) f w = f x w.
Proof. reflexivity. Qed.

Lemma bind_new inj (o : A) :
  bind (new inj o) f w
  = f o {| env := env w; calls := calls w ++ [call_new (inj o)] |}.
Proof. reflexivity. Qed.

Lemma bind_seed_everything s :
  bind (seed_everything s) g w
  = g tt {| env := env w; calls := calls w ++ [call_seed_everything s] |}.
Proof. reflexivity. Qed.

Lemma bind_chdir path :
  is_dir (fs (env w)) path = true ->
  bind (os_chdir path) g w
  = g tt {| env := {| cwd := path; original_cwd := original_cwd (env w);
                      fs := fs (env w);
                      cuda_is_available := cuda_is_available (env w);
                      warnings := warnings (env w) |};
            calls := calls w ++ [call_chdir path] |}.
Proof.
  intros H. unfold os_chdir, log_call, get_env, put_env, bind.
  cbn [env calls]. now rewrite H.
Qed.

Lemma bind_chdir_fails path :
  is_dir (fs (env w)) path = false ->
  exists x,
    bind (os_chdir path) g w
    = (inl x, {| env := env w; calls := calls w ++ [call_chdir path] |}).
Proof.
  intros H. unfold os_chdir, log_call, get_env, put_env, raise, bind.
  cbn [env calls]. rewrite H.
  destruct (is_file (fs (env w)) path); eexists; reflexivity.
Qed.

Lemma bind_mkdir path fs' :
  makedirs (fs (env w)) (base (cwd (env w)) path) (parts path) = inr fs' ->
  bind (Path_mkdir path) g w
  = g tt {| env := {| cwd := cwd (env w); original_cwd := original_cwd (env w);
                      fs := fs';
                      cuda_is_available := cuda_is_available (env w);
                      warnings := warnings (env w) |};
            calls := calls w ++ [call_mkdir path] |}.
Proof.
  intros H. unfold Path_mkdir, log_call, get_env, put_env, bind.
  cbn [env calls]. now rewrite H.
Qed.

Lemma bind_mkdir_fails path x :
  makedirs (fs (env w)) (base (cwd (env w)) path) (parts path) = inl x ->
  bind (Path_mkdir path) g w
  = (inl x, {| env := env w; calls := calls w ++ [call_mkdir path] |}).
Proof.
  intros H. unfold Path_mkdir, log_call, get_env, put_env, raise, bind.
  cbn [env calls]. now rewrite H.
Qed.

Lemma bind_warn message :
  bind (warnings_warn message) g w
  = g tt {| env := {| cwd := cwd (env w); original_cwd := original_cwd (env w);
                      fs := fs (env w);
                      cuda_is_available := cuda_is_available (env w);
                      warnings := warnings (env w) ++ [message] |};
            calls := calls w ++ [call_warn message] |}.
Proof. reflexivity. Qed.

End Steps.

Lemma bind_get_original_cwd {B} (f : Location -> Script B) w :
  bind get_original_cwd f w = f (original_cwd (env w)) w.
Proof. reflexivity. Qed.

Lemma bind_cuda {B} (f : bool -> Script B) w :
  bind torch_cuda_is_available f w = f (cuda_is_available (env w)) w.
Proof. reflexivity. Qed.

Lemma bind_assoc {A B C} (m : Script A) (f : A -> Script B)
    (g : B -> Script C) w :
  bind (bind m f) g w = bind m (fun x => bind (f x) g) w.
Proof. unfold bind. destruct (m w) as [[x|a] w']; reflexivity. Qed.

Lemma calls_Trainer_fit tr m d w :
  calls (snd (Trainer_fit tr m d w)) = calls w ++ [call_fit tr m d].
Proof.
  unfold Trainer_fit, log_call, get_env, put_env, raise, bind. cbn [env calls].
  destruct (fit tr m d (env w)) as [[x|u] e']; reflexivity.
Qed.

Lemma exit_status_Trainer_fit tr m d w :
  exit_status (fst (Trainer_fit tr m d w))
  = exit_status (fst (fit tr m d (env w))).
Proof.
  unfold Trainer_fit, log_call, get_env, put_env, raise, bind. cbn [env calls].
  destruct (fit tr m d (env w)) as [[x|u] e']; reflexivity.
Qed.

Ltac simpl_world :=
  cbv beta zeta;
  cbn [env calls fs cwd original_cwd cuda_is_available warnings app fst snd].

Ltac script_step :=
  first
    [ rewrite bind_get_original_cwd
    | rewrite bind_seed_everything
    | rewrite bind_new
    | rewrite bind_cuda
    | rewrite bind_warn
    | rewrite bind_ret
    | rewrite bind_assoc
    | erewrite bind_chdir by (simpl_world; eassumption)
    | erewrite bind_mkdir by (simpl_world; eassumption)
    | erewrite bind_mkdir_fails by (simpl_world; eassumption)
    | match goal with
      | H : cuda_is_available _ = _ |- _ => rewrite H
      end ];
  simpl_world.

(** Runs [main] symbolically as far as the facts in the context allow. *)
Ltac run_main :=
  unfold main, start, get_model, get_train_transform, get_valid_transform,
    checkpoint_dir, log_dir in *;
  simpl_world;
  repeat script_step.

(** Membership of an explicit entry in an explicit log. *)
Ltac in_log := cbn [In]; repeat first [left; reflexivity | right].

(** ** Reaching [fit] *)

Lemma setup_dirs cfg e :
  setup_ok cfg e = true ->
  is_dir (fs e) (original_cwd e) = true /\
  exists fs1 fs2,
    makedirs (fs e) (base (original_cwd e) (checkpoint_dir cfg))
             (parts (checkpoint_dir cfg)) = inr fs1 /\
    makedirs fs1 (base (original_cwd e) (log_dir cfg))
             (parts (log_dir cfg)) = inr fs2.
Proof.
  unfold setup_ok. intros H.
  apply andb_prop in H as [H H3]. apply andb_prop in H as [H1 H2].
  unfold creatable in H2, H3. split; [exact H1|].
  destruct (makedirs_creatable _ _ _ H2) as [fs1 E1].
  destruct (makedirs_creatable _ fs1 _ (creatable_frame _ _ _ _ _ E1 H3))
    as [fs2 E2].
  now exists fs1, fs2.
Qed.

(** From a passable environment to the facts [run_main] needs. *)
Ltac enter_setup H :=
  let Hd := fresh "Hdir" in
  let fs1 := fresh "fs1" in
  let fs2 := fresh "fs2" in
  let E1 := fresh "E1" in
  let E2 := fresh "E2" in
  let Hc := fresh "Hcuda" in
  destruct (setup_dirs _ _ H) as (Hd & fs1 & fs2 & E1 & E2);
  match goal with
  | e : Env |- _ => destruct (cuda_is_available e) eqn:Hc
  end.

(** The log of a run that gets past [os.chdir]: the change of directory,
    the seeding, the model, the two pipelines, the data module, then the
    rest, in which nothing is seeded. *)
Lemma log_after_chdir cfg e :
  is_dir (fs e) (original_cwd e) = true ->
  exists m t v d rest,
    calls (snd (main cfg (start e)))
    = call_chdir (original_cwd e) :: call_seed_everything (seed cfg)
      :: call_new (obj_CRNN m) :: call_new (obj_AugTransform t)
      :: call_new (obj_AugTransform v)
      :: call_new (obj_OCRDetectionDataModule d) :: rest
    /\ forallb (fun c => negb (is_seed_call c)) rest = true
    /\ dm_train_transforms d = t /\ dm_val_transforms d = v.
Proof.
  intros Hdir.
  destruct (makedirs (fs e) (base (original_cwd e) (checkpoint_dir cfg))
              (parts (checkpoint_dir cfg))) as [x|fs1] eqn:E1.
  { run_main. eexists _, _, _, _, _. repeat split; reflexivity. }
  destruct (makedirs fs1 (base (original_cwd e) (log_dir cfg))
              (parts (log_dir cfg))) as [x|fs2] eqn:E2.
  { run_main. eexists _, _, _, _, _. repeat split; reflexivity. }
  destruct (cuda_is_available e) eqn:Hcuda;
    run_main; rewrite calls_Trainer_fit; simpl_world;
    eexists _, _, _, _, _; repeat split; reflexivity.
Qed.

(** Case analysis on the membership of an entry in an explicit log. *)
Ltac inv_log H :=
  cbn [In] in H;
  repeat (destruct H as [H|H]; [try discriminate H|]);
  try contradiction.

(** In every run, a data module is constructed with the two pipelines of
    [get_train_transform] and [get_valid_transform]. *)
Lemma data_module_pipelines cfg e d :
  In (call_new (obj_OCRDetectionDataModule d))
     (calls (snd (main cfg (start e)))) ->
  dm_train_transforms d
  = mkAugTransform (A_Compose (aug_transforms ++ get_ocr_valid_transform_list))
  /\ dm_val_transforms d
     = mkAugTransform (A_Compose get_ocr_valid_transform_list).
Proof.
  destruct (is_dir (fs e) (original_cwd e)) eqn:Hdir.
  - destruct (makedirs (fs e) (base (original_cwd e) (checkpoint_dir cfg))
                (parts (checkpoint_dir cfg))) as [x|fs1] eqn:E1.
    { run_main. intros Hin. inv_log Hin. injection Hin as <-. now split. }
    destruct (makedirs fs1 (base (original_cwd e) (log_dir cfg))
                (parts (log_dir cfg))) as [x|fs2] eqn:E2.
    { run_main. intros Hin. inv_log Hin. injection Hin as <-. now split. }
    destruct (cuda_is_available e) eqn:Hcuda;
      run_main; rewrite calls_Trainer_fit; simpl_world;
      intros Hin; inv_log Hin; injection Hin as <-; now split.
  - unfold main, start. rewrite bind_get_original_cwd. simpl_world.
    match goal with
    | |- context [bind (os_chdir ?p) ?g ?w] =>
        destruct (bind_chdir_fails g w p Hdir) as [x ->]
    end.
    simpl_world. intros Hin. inv_log Hin.
Qed.

(** ** The transform pipelines *)

(** C1. The validation pipeline is a strict suffix of the training
    pipeline.  Whatever the state in which the two builders are called, the
    training steps are the six augmentation steps followed by exactly the
    steps of the validation pipeline, which are the shared preprocessing
    steps and nothing else, so no augmentation-only step is among them;
    and in every run the data module is built with these two pipelines. *)
Theorem valid_pipeline_strict_suffix w1 w2 :
  (exists t v,
     fst (get_train_transform w1) = inr t /\
     fst (get_valid_transform w2) = inr v /\
     steps (compose t) = aug_transforms ++ steps (compose v) /\
     steps (compose v) = get_ocr_valid_transform_list /\
     length aug_transforms = 6%nat /\
     (length (steps (compose v)) < length (steps (compose t)))%nat /\
     forall s, augmentation_only s -> ~ In s (steps (compose v))) /\
  (forall cfg e d,
     In (call_new (obj_OCRDetectionDataModule d))
        (calls (snd (main cfg (start e)))) ->
     steps (compose (dm_train_transforms d))
     = aug_transforms ++ steps (compose (dm_val_transforms d)) /\
     forall s, augmentation_only s ->
               ~ In s (steps (compose (dm_val_transforms d)))).
Proof.
  split.
  - eexists _, _. split; [reflexivity|]. split; [reflexivity|].
    cbn [steps compose]. repeat split.
    + rewrite length_app. cbn [aug_transforms length]. lia.
    + intros s [_ Hs]. exact Hs.
  - intros cfg e d Hin.
    destruct (data_module_pipelines cfg e d Hin) as [-> ->].
    cbn [steps compose]. split; [reflexivity|].
    intros s [_ Hs]. exact Hs.
Qed.

(** ** The checkpoint callback *)

(** C2. In a run whose set-up goes through, the checkpoint callback that
    [main] builds and hands to the trainer monitors the fixed name ["12"],
    saves every (validation-check interval + 1) training steps, keeps the
    top 2 checkpoints under mode ["max"] and the last one, and does not
    save weights only. *)
Theorem checkpoint_callback_policy cfg e :
  setup_ok cfg e = true ->
  exists tr m d w' c lr,
    main cfg (start e) = Trainer_fit tr m d w' /\
    tr_callbacks tr = [cb_checkpoint c; cb_lr_monitor lr] /\
    In (call_new (obj_ModelCheckpoint c)) (calls w') /\
    monitor c = "12" /\
    every_n_train_steps c = val_check_interval cfg + 1 /\
    save_top_k c = 2 /\
    mode c = "max" /\
    save_last c = true /\
    save_weights_only c = false.
Proof.
  intros H. enter_setup H;
    (eexists _, _, _, _, _, _; split; [run_main; reflexivity|];
     split; [reflexivity|]; split; [in_log|]; repeat split).
Qed.

(** C10. The name given to the training wrapper as its target metric, the
    name the checkpoint callback monitors and the metric key in the
    filename template are one string, ["12"]: the template is
    [{step}-{12:.4f}], whose second replacement field is that name with
    the format specification [.4f]. *)
Theorem metric_name_shared cfg e :
  setup_ok cfg e = true ->
  exists tr m d w' c lr,
    main cfg (start e) = Trainer_fit tr m d w' /\
    tr_callbacks tr = [cb_checkpoint c; cb_lr_monitor lr] /\
    wr_target_metric m = "12" /\
    monitor c = wr_target_metric m /\
    filename c = "{step}-{" +:+ monitor c +:+ ":.4f}" /\
    replacement_fields (filename c)
    = [("step", ""); (wr_target_metric m, ".4f")].
Proof.
  intros H. enter_setup H;
    (eexists _, _, _, _, _, _; split; [run_main; reflexivity|];
     split; [reflexivity|]; repeat split).
Qed.

(** C3 (as the code has it). [main] makes no check of the monitored name
    against the keys the training wrapper logs: whatever those keys are,
    a run whose set-up goes through invokes [fit] with a wrapper and a
    checkpoint callback that both carry ["12"]; when the wrapper does not
    log ["12"] the guard property fails, and the exit status of the run is
    that of [fit], 0 when [fit] returns. *)
Theorem no_metric_guard
    (logged_keys : OCRDetectorTrainer OptimizerConfig SchedulerConfig -> list string)
    cfg e :
  setup_ok cfg e = true ->
  exists tr m d w' c lr,
    main cfg (start e) = Trainer_fit tr m d w' /\
    tr_callbacks tr = [cb_checkpoint c; cb_lr_monitor lr] /\
    monitor c = "12" /\
    wr_target_metric m = "12" /\
    In (call_fit tr m d) (calls (snd (main cfg (start e)))) /\
    (~ In "12" (logged_keys m) -> ~ guards_metric_mismatch logged_keys cfg e) /\
    exit_status (fst (main cfg (start e)))
    = exit_status (fst (fit tr m d (env w'))) /\
    (forall u e', fit tr m d (env w') = (inr u, e') ->
                  exit_status (fst (main cfg (start e))) = 0).
Proof.
  intros H.
  assert (exists tr m d w' c lr,
    main cfg (start e) = Trainer_fit tr m d w' /\
    tr_callbacks tr = [cb_checkpoint c; cb_lr_monitor lr] /\
    monitor c = "12" /\ wr_target_metric m = "12")
    as (tr & m & d & w' & c & lr & Hmain & Hcb & Hmon & Hwr).
  { enter_setup H;
      (eexists _, _, _, _, _, _; split; [run_main; reflexivity|];
       repeat split). }
  assert (In (call_fit tr m d) (calls (snd (main cfg (start e))))) as Hfit.
  { rewrite Hmain, calls_Trainer_fit. apply in_or_app. right. now left. }
  exists tr, m, d, w', c, lr. repeat split; trivial.
  - intros Hno Hguard. apply Hno. rewrite <- Hmon.
    apply (Hguard tr m d c Hfit). rewrite Hcb. now left.
  - rewrite Hmain. apply exit_status_Trainer_fit.
  - intros u e' Hu. rewrite Hmain, exit_status_Trainer_fit, Hu. reflexivity.
Qed.

(** ** The compute device *)

(** C5. In a run whose set-up goes through, [main] reaches [fit] whether
    or not CUDA is available.  Without CUDA the trainer gets [gpus=None]
    and exactly one warning is emitted; with CUDA it gets [gpus=-1], all
    devices, and no warning is emitted. *)
Theorem device_selection cfg e :
  setup_ok cfg e = true ->
  exists tr m d w',
    main cfg (start e) = Trainer_fit tr m d w' /\
    (cuda_is_available e = false ->
       tr_gpus tr = None /\
       warnings (env w')
       = warnings e
         ++ ["GPU is not available. Try train on CPU. It may will bew very slow"] /\
       List.filter is_warn_call (calls w')
       = [call_warn
            "GPU is not available. Try train on CPU. It may will bew very slow"]) /\
    (cuda_is_available e = true ->
       tr_gpus tr = Some (-1) /\
       warnings (env w') = warnings e /\
       List.filter is_warn_call (calls w') = []).
Proof.
  intros H. enter_setup H;
    (eexists _, _, _, _; split; [run_main; reflexivity|];
     split; intros Hc; try discriminate Hc; repeat split).
Qed.

(** ** The experiment directories *)

(** C6. In a run whose set-up goes through, both [checkpoint/] and [logs/]
    under the experiment directory are directories in the environment in
    which [fit] is invoked, whatever [fit] then does; the two [mkdir] calls
    are in the log and no [fit] call precedes them.  Directories that exist
    already cause no failure: if the whole way to both exists beforehand,
    the tree is left as it was. *)
Theorem experiment_tree_created cfg e :
  setup_ok cfg e = true ->
  exists tr m d w',
    main cfg (start e) = Trainer_fit tr m d w' /\
    is_dir (fs (env w')) (resolve (original_cwd e) (checkpoint_dir cfg)) = true /\
    is_dir (fs (env w')) (resolve (original_cwd e) (log_dir cfg)) = true /\
    In (call_mkdir (checkpoint_dir cfg)) (calls w') /\
    In (call_mkdir (log_dir cfg)) (calls w') /\
    forallb (fun c => negb (is_fit_call c)) (calls w') = true /\
    (existing (fs e) (original_cwd e) (checkpoint_dir cfg) = true ->
     existing (fs e) (original_cwd e) (log_dir cfg) = true ->
     fs (env w') = fs e).
Proof.
  intros H.
  destruct (setup_dirs _ _ H) as (Hdir & fs1 & fs2 & E1 & E2).
  assert (fs2 !! resolve (original_cwd e) (checkpoint_dir cfg) = Some Dir
          /\ fs2 !! resolve (original_cwd e) (log_dir cfg) = Some Dir)
    as [Hck Hlg].
  { destruct (truediv_child (Path (exp_dir cfg))) as [T1 T2].
    unfold checkpoint_dir, log_dir in *. split.
    - apply (makedirs_keeps_dir _ _ _ _ _ E2).
      exact (mkdir_makes (fs e) _ (Path (exp_dir cfg)) "checkpoint" fs1 eq_refl T1 E1).
    - exact (mkdir_makes fs1 _ (Path (exp_dir cfg)) "logs" fs2 eq_refl T2 E2). }
  assert (existing (fs e) (original_cwd e) (checkpoint_dir cfg) = true ->
          existing (fs e) (original_cwd e) (log_dir cfg) = true ->
          fs2 = fs e) as Hsame.
  { unfold existing. intros X1 X2.
    rewrite (makedirs_existing _ _ _ X1) in E1. injection E1 as <-.
    rewrite (makedirs_existing _ _ _ X2) in E2. now injection E2 as <-. }
  destruct (cuda_is_available e) eqn:Hcuda;
    (eexists _, _, _, _; split; [run_main; reflexivity|]; simpl_world;
     split; [now apply is_dir_lookup|]; split; [now apply is_dir_lookup|];
     split; [in_log|]; split; [in_log|]; split; [reflexivity|exact Hsame]).
Qed.

(** ** Seeding and the working directory *)

(** C7. In a run that gets past its change of directory, [seed_everything]
    is called exactly once, with the seed of the configuration, and before
    the model, the two transform pipelines and the data module are
    constructed: nothing is constructed before it. *)
Theorem seeding_once_before_consumers cfg e :
  is_dir (fs e) (original_cwd e) = true ->
  exists m t v d rest,
    calls (snd (main cfg (start e)))
    = call_chdir (original_cwd e) :: call_seed_everything (seed cfg)
      :: call_new (obj_CRNN m) :: call_new (obj_AugTransform t)
      :: call_new (obj_AugTransform v)
      :: call_new (obj_OCRDetectionDataModule d) :: rest /\
    List.filter is_seed_call (calls (snd (main cfg (start e))))
    = [call_seed_everything (seed cfg)].
Proof.
  intros Hdir.
  destruct (log_after_chdir cfg e Hdir)
    as (m & t & v & d & rest & Hlog & Hrest & _).
  exists m, t, v, d, rest. split; [exact Hlog|].
  rewrite Hlog. cbn [List.filter is_seed_call]. f_equal.
  clear Hlog. induction rest as [|c rest IH]; [reflexivity|].
  cbn [forallb] in Hrest. apply andb_prop in Hrest as [Hc Hrest].
  cbn [List.filter]. destruct (is_seed_call c); [discriminate|]. now apply IH.
Qed.

(** C8. The first call of every run is the change to the invocation
    directory.  When the set-up goes through, that directory is the
    working directory for everything after it: [fit] is invoked with it as
    working directory and the experiment directories were made where the
    configured path leads from there. *)
Theorem chdir_is_first_action cfg e :
  (exists rest,
     calls (snd (main cfg (start e))) = call_chdir (original_cwd e) :: rest) /\
  (setup_ok cfg e = true ->
   exists tr m d w',
     main cfg (start e) = Trainer_fit tr m d w' /\
     cwd (env w') = original_cwd e /\
     fs (env w') !! resolve (original_cwd e) (checkpoint_dir cfg) = Some Dir /\
     fs (env w') !! resolve (original_cwd e) (log_dir cfg) = Some Dir).
Proof.
  split.
  - destruct (is_dir (fs e) (original_cwd e)) eqn:Hdir.
    + destruct (log_after_chdir cfg e Hdir)
        as (m & t & v & d & rest & Hlog & _).
      rewrite Hlog. now eexists.
    + unfold main, start. rewrite bind_get_original_cwd. simpl_world.
      match goal with
      | |- context [bind (os_chdir ?p) ?g ?w] =>
          destruct (bind_chdir_fails g w p Hdir) as [x ->]
      end.
      simpl_world. now eexists.
  - intros H.
    destruct (setup_dirs _ _ H) as (Hdir & fs1 & fs2 & E1 & E2).
    assert (fs2 !! resolve (original_cwd e) (checkpoint_dir cfg) = Some Dir
            /\ fs2 !! resolve (original_cwd e) (log_dir cfg) = Some Dir)
      as [Hck Hlg].
    { destruct (truediv_child (Path (exp_dir cfg))) as [T1 T2].
    unfold checkpoint_dir, log_dir in *. split.
      - apply (makedirs_keeps_dir _ _ _ _ _ E2).
        exact (mkdir_makes (fs e) _ (Path (exp_dir cfg)) "checkpoint" fs1 eq_refl T1 E1).
      - exact (mkdir_makes fs1 _ (Path (exp_dir cfg)) "logs" fs2 eq_refl T2 E2). }
    destruct (cuda_is_available e) eqn:Hcuda;
      (eexists _, _, _, _; split; [run_main; reflexivity|]; simpl_world;
       split; [reflexivity|]; split; assumption).
Qed.

(** C9. The seed of the configuration is the argument of the one
    [seed_everything] call and the seed given to the data module. *)
Theorem single_seed cfg e :
  setup_ok cfg e = true ->
  exists tr m d w',
    main cfg (start e) = Trainer_fit tr m d w' /\
    dm_seed d = seed cfg /\
    List.filter is_seed_call (calls w') = [call_seed_everything (dm_seed d)] /\
    In (call_new (obj_OCRDetectionDataModule d)) (calls w').
Proof.
  intros H. enter_setup H;
    (eexists _, _, _, _; split; [run_main; reflexivity|];
     split; [reflexivity|]; split; [reflexivity|in_log]).
Qed.

(** * Further properties of the script *)

(** ** More on [makedirs] *)

Section MakedirsMore.
Implicit Types (fs : FS) (cur l : Location) (ps : list string).

(** What [makedirs] changes: only missing nodes on its way, which become
    directories. *)
Lemma makedirs_frame_visited ps : forall fs cur fs',
  makedirs fs cur ps = inr fs' ->
  forall l, fs' !! l = fs !! l
            \/ (fs !! l = None /\ fs' !! l = Some Dir /\ In l (visited cur ps)).
Proof.
  induction ps as [|p ps IH]; intros fs cur fs' H l; simpl in *.
  - injection H as <-. now left.
  - destruct (String.eqb p ".."); [now apply (IH _ _ _ H)|].
    destruct (fs !! (cur ++ [p])) as [[|]|] eqn:E; [discriminate| |].
    + destruct (IH _ _ _ H l) as [H1|(H1 & H2 & H3)]; [now left|].
      right. repeat split; trivial. now right.
    + destruct (IH _ _ _ H l) as [H1|(H1 & H2 & H3)];
        destruct (decide (cur ++ [p] = l)) as [<-|Hne].
      * rewrite lookup_insert_eq in H1. right. repeat split; trivial. now left.
      * rewrite lookup_insert_ne in H1 by assumption. now left.
      * now rewrite lookup_insert_eq in H1.
      * rewrite lookup_insert_ne in H1 by assumption.
        right. repeat split; trivial. now right.
Qed.

Lemma is_file_makedirs fs cur ps fs' l :
  makedirs fs cur ps = inr fs' -> is_file fs' l = is_file fs l.
Proof.
  intros H. unfold is_file.
  destruct (makedirs_frame _ _ _ _ H l) as [->|[-> ->]]; reflexivity.
Qed.


Lemma makedirs_not_file ps : forall fs cur fs',
  makedirs fs cur ps = inr fs' ->
  forallb (fun l => negb (is_file fs l)) (visited cur ps) = true.
Proof.
  induction ps as [|p ps IH]; intros fs cur fs' H; simpl in *.
  - reflexivity.
  - destruct (String.eqb p ".."); [now apply (IH _ _ _ H)|].
    cbn [forallb]. unfold is_file at 1.
    destruct (fs !! (cur ++ [p])) as [[|]|] eqn:E; [discriminate| |];
      cbn [negb andb].
    + now apply (IH _ _ _ H).
    + apply forallb_forall. intros l Hl.
      rewrite <- (is_file_insert_dir fs (cur ++ [p]) l E).
      now apply (proj1 (forallb_forall _ _) (IH _ _ _ H)).
Qed.

Lemma makedirs_error_kind ps : forall fs cur x,
  makedirs fs cur ps = inl x -> x = FileExistsError \/ x = NotADirectoryError.
Proof.
  induction ps as [|p ps IH]; intros fs cur x H; simpl in *; [discriminate|].
  destruct (String.eqb p ".."); [now apply (IH _ _ _ H)|].
  destruct (fs !! (cur ++ [p])) as [[|]|]; [|now apply (IH _ _ _ H)..].
  injection H as <-. destruct ps; auto.
Qed.

Lemma not_creatable_fails fs cwd p :
  creatable fs cwd p = false ->
  exists x, makedirs fs (base cwd p) (parts p) = inl x
            /\ (x = FileExistsError \/ x = NotADirectoryError).
Proof.
  intros H. destruct (makedirs fs (base cwd p) (parts p)) as [x|fs'] eqn:E.
  - exists x. split; [reflexivity|]. now apply (makedirs_error_kind _ _ _ _ E).
  - apply makedirs_not_file in E. unfold creatable in H. congruence.
Qed.

Lemma creatable_makedirs fs cur ps fs' cwd p :
  makedirs fs cur ps = inr fs' -> creatable fs' cwd p = creatable fs cwd p.
Proof.
  intros H. unfold creatable.
  induction (visited (base cwd p) (parts p)) as [|l L IH]; [reflexivity|].
  cbn [forallb]. now rewrite IH, (is_file_makedirs _ _ _ _ l H).
Qed.

End MakedirsMore.

(** ** Where set-up stops *)

Lemma fst_Trainer_fit tr m d w :
  fst (Trainer_fit tr m d w)
  = match fst (fit tr m d (env w)) with inl x => inl x | inr _ => inr tt end.
Proof.
  unfold Trainer_fit, log_call, get_env, put_env, raise, bind. cbn [env calls].
  destruct (fit tr m d (env w)) as [[x|u] e']; reflexivity.
Qed.

Lemma env_Trainer_fit tr m d w :
  env (snd (Trainer_fit tr m d w)) = snd (fit tr m d (env w)).
Proof.
  unfold Trainer_fit, log_call, get_env, put_env, raise, bind. cbn [env calls].
  destruct (fit tr m d (env w)) as [[x|u] e']; reflexivity.
Qed.



(** X3. When a regular file lies on the way to [checkpoint/], [main] raises
    the error of the first [mkdir]; by then it has changed directory,
    seeded and built the model, the pipelines and the data module, and
    nothing after: no wrapper, callback, logger or trainer is built, no
    warning is emitted and [fit] is not called. *)
Theorem checkpoint_dir_blocked cfg e :
  is_dir (fs e) (original_cwd e) = true ->
  creatable (fs e) (original_cwd e) (checkpoint_dir cfg) = false ->
  exists x m t v d,
    fst (main cfg (start e)) = inl x /\
    (x = FileExistsError \/ x = NotADirectoryError) /\
    calls (snd (main cfg (start e)))
    = [call_chdir (original_cwd e); call_seed_everything (seed cfg);
       call_new (obj_CRNN m); call_new (obj_AugTransform t);
       call_new (obj_AugTransform v);
       call_new (obj_OCRDetectionDataModule d);
       call_mkdir (checkpoint_dir cfg)] /\
    warnings (env (snd (main cfg (start e)))) = warnings e /\
    cwd (env (snd (main cfg (start e)))) = original_cwd e.
Proof.
  intros Hdir Hno.
  destruct (not_creatable_fails _ _ _ Hno) as (x & E1 & Hx).
  exists x. eexists _, _, _, _. run_main.
  split; [reflexivity|]. split; [exact Hx|]. repeat split.
Qed.

(** X4. When [checkpoint/] can be made and a regular file lies on the way
    to [logs/], [main] raises the error of the second [mkdir] as its last
    call: [checkpoint/] has been created and stays, the wrapper and the two
    callbacks have been built, but no logger or trainer is built, [fit] is
    not called and no warning is emitted, with or without CUDA. *)
Theorem log_dir_blocked cfg e :
  is_dir (fs e) (original_cwd e) = true ->
  creatable (fs e) (original_cwd e) (checkpoint_dir cfg) = true ->
  creatable (fs e) (original_cwd e) (log_dir cfg) = false ->
  exists x m t v d wr c lr,
    fst (main cfg (start e)) = inl x /\
    (x = FileExistsError \/ x = NotADirectoryError) /\
    calls (snd (main cfg (start e)))
    = [call_chdir (original_cwd e); call_seed_everything (seed cfg);
       call_new (obj_CRNN m); call_new (obj_AugTransform t);
       call_new (obj_AugTransform v);
       call_new (obj_OCRDetectionDataModule d);
       call_mkdir (checkpoint_dir cfg);
       call_new (obj_OCRDetectorTrainer wr);
       call_new (obj_ModelCheckpoint c);
       call_new (obj_LearningRateMonitor lr);
       call_mkdir (log_dir cfg)] /\
    fs (env (snd (main cfg (start e))))
      !! resolve (original_cwd e) (checkpoint_dir cfg) = Some Dir /\
    warnings (env (snd (main cfg (start e)))) = warnings e.
Proof.
  intros Hdir Hck Hno.
  destruct (makedirs_creatable _ _ _ Hck) as [fs1 E1].
  rewrite <- (creatable_makedirs _ _ _ _ (original_cwd e) (log_dir cfg) E1)
    in Hno.
  destruct (not_creatable_fails _ _ _ Hno) as (x & E2 & Hx).
  assert (fs1 !! resolve (original_cwd e) (checkpoint_dir cfg) = Some Dir)
    as Hmade.
  { destruct (truediv_child (Path (exp_dir cfg))) as [T1 _].
    unfold checkpoint_dir in *.
    exact (mkdir_makes (fs e) _ (Path (exp_dir cfg)) "checkpoint" fs1
             eq_refl T1 E1). }
  exists x. eexists _, _, _, _, _, _, _. run_main.
  split; [reflexivity|]. split; [exact Hx|]. split; [reflexivity|].
  split; [exact Hmade|reflexivity].
Qed.

(** X5. After the set-up [main] does nothing but call [fit], once, as its
    last call: an exception of [fit] leaves [main] unchanged, a return of
    [fit] is the return of [main], and the environment [main] ends in is
    the one [fit] leaves. *)
Theorem fit_outcome_propagates cfg e :
  setup_ok cfg e = true ->
  exists tr m d w',
    main cfg (start e) = Trainer_fit tr m d w' /\
    fst (main cfg (start e))
    = match fst (fit tr m d (env w')) with
      | inl x => inl x
      | inr _ => inr tt
      end /\
    env (snd (main cfg (start e))) = snd (fit tr m d (env w')) /\
    calls (snd (main cfg (start e))) = calls w' ++ [call_fit tr m d] /\
    List.filter is_fit_call (calls (snd (main cfg (start e))))
    = [call_fit tr m d].
Proof.
  intros H.
  assert (exists tr m d w',
    main cfg (start e) = Trainer_fit tr m d w' /\
    List.filter is_fit_call (calls w') = [])
    as (tr & m & d & w' & Hmain & Hnone).
  { enter_setup H;
      (eexists _, _, _, _; split; [run_main; reflexivity|reflexivity]). }
  exists tr, m, d, w'. split; [exact Hmain|]. rewrite Hmain.
  split; [apply fst_Trainer_fit|]. split; [apply env_Trainer_fit|].
  rewrite calls_Trainer_fit. split; [reflexivity|].
  rewrite List.filter_app, Hnone. reflexivity.
Qed.

(** X6. The set-up only adds to the directory tree: in the environment in
    which [fit] is invoked every node that existed is unchanged, and every
    new node is a directory on the way to [checkpoint/] or [logs/]; the
    CUDA flag and the recorded invocation directory are untouched. *)
Theorem tree_only_grows cfg e :
  setup_ok cfg e = true ->
  exists tr m d w',
    main cfg (start e) = Trainer_fit tr m d w' /\
    (forall l,
       fs (env w') !! l = fs e !! l \/
       (fs e !! l = None /\ fs (env w') !! l = Some Dir /\
        (In l (visited (base (original_cwd e) (checkpoint_dir cfg))
                 (parts (checkpoint_dir cfg)))
         \/ In l (visited (base (original_cwd e) (log_dir cfg))
                    (parts (log_dir cfg)))))) /\
    original_cwd (env w') = original_cwd e /\
    cuda_is_available (env w') = cuda_is_available e.
Proof.
  intros H.
  destruct (setup_dirs _ _ H) as (Hdir & fs1 & fs2 & E1 & E2).
  assert (forall l,
       fs2 !! l = fs e !! l \/
       (fs e !! l = None /\ fs2 !! l = Some Dir /\
        (In l (visited (base (original_cwd e) (checkpoint_dir cfg))
                 (parts (checkpoint_dir cfg)))
         \/ In l (visited (base (original_cwd e) (log_dir cfg))
                    (parts (log_dir cfg)))))) as Hgrow.
  { intros l.
    destruct (makedirs_frame_visited _ _ _ _ E1 l) as [A1|(A1 & A2 & A3)];
      destruct (makedirs_frame_visited _ _ _ _ E2 l) as [B1|(B1 & B2 & B3)].
    - left. congruence.
    - right. repeat split; [congruence|exact B2|now right].
    - right. repeat split; [exact A1|congruence|now left].
    - congruence. }
  destruct (cuda_is_available e) eqn:Hcuda;
    (eexists _, _, _, _; split; [run_main; reflexivity|]; simpl_world;
     split; [exact Hgrow|]; split; reflexivity).
Qed.

(** X9. The run does not depend on the directory Hydra moved the process
    to: when the invocation directory exists, [main] behaves the same from
    any working directory. *)
Theorem cwd_is_irrelevant cfg e (c : Location) :
  is_dir (fs e) (original_cwd e) = true ->
  main cfg (start {| cwd := c; original_cwd := original_cwd e; fs := fs e;
                     cuda_is_available := cuda_is_available e;
                     warnings := warnings e |})
  = main cfg (start e).
Proof.
  intros H. unfold main, start.
  rewrite !bind_get_original_cwd. simpl_world.
  erewrite !bind_chdir by (simpl_world; exact H). simpl_world. reflexivity.
Qed.

(** ** Paths and their strings *)

Section PathStrings.
Implicit Types (s a b : string) (l : list string) (p q : PurePath).

Lemma split_on_no_slash s : no_slash s = true -> split_on "/" s = [s].
Proof.
  induction s as [|c s IH]; [reflexivity|]. cbn [no_slash split_on].
  intros H. apply andb_prop in H as [Hc Hs].
  destruct (Ascii.eqb c "/"); [discriminate|]. now rewrite (IH Hs).
Qed.

Lemma split_on_slash a b :
  no_slash a = true ->
  split_on "/" (a +:+ String "/" b) = a :: split_on "/" b.
Proof.
  induction a as [|c a IH]; [reflexivity|]. cbn [no_slash].
  intros H. apply andb_prop in H as [Hc Ha].
  change (String c a +:+ String "/" b) with (String c (a +:+ String "/" b)).
  cbn [split_on]. destruct (Ascii.eqb c "/"); [discriminate|].
  now rewrite (IH Ha).
Qed.

Lemma split_on_pieces s : forallb no_slash (split_on "/" s) = true.
Proof.
  induction s as [|c s IH]; [reflexivity|]. cbn [split_on].
  destruct (Ascii.eqb c "/") eqn:Ec; [exact IH|].
  destruct (split_on "/" s) as [|w ws]; cbn [forallb no_slash] in *;
    rewrite Ec; [reflexivity|exact IH].
Qed.

Lemma split_join l :
  forallb no_slash l = true -> l <> [] -> split_on "/" (join_slash l) = l.
Proof.
  induction l as [|x l IH]; [congruence|]. intros H _.
  cbn [forallb] in H. apply andb_prop in H as [Hx Hl].
  destruct l as [|y l'].
  - now apply split_on_no_slash.
  - change (join_slash (x :: y :: l'))
      with (x +:+ String "/" (join_slash (y :: l'))).
    rewrite (split_on_slash _ _ Hx). f_equal. now apply IH.
Qed.

Lemma filter_names l :
  forallb (fun n => is_component n && no_slash n) l = true ->
  List.filter is_component l = l /\ forallb no_slash l = true.
Proof.
  induction l as [|x l IH]; [now split|]. cbn [forallb List.filter].
  intros H. apply andb_prop in H as [Hx Hl].
  apply andb_prop in Hx as [Hc Hs]. destruct (IH Hl) as [-> ->].
  now rewrite Hc, Hs.
Qed.

Lemma join_not_anchored x l :
  is_component x = true -> no_slash x = true ->
  starts_with_slash (join_slash (x :: l)) = false.
Proof.
  destruct x as [|c x]; [discriminate|]. cbn [no_slash]. intros _ H.
  apply andb_prop in H as [Hc _].
  destruct l as [|y l].
  - cbn [join_slash starts_with_slash].
    now destruct (Ascii.eqb c "/").
  - change (join_slash (String c x :: y :: l))
      with (String c (x +:+ "/" +:+ join_slash (y :: l))).
    cbn [starts_with_slash]. now destruct (Ascii.eqb c "/").
Qed.

Lemma Path_proper s : proper (Path s) = true.
Proof.
  unfold proper, Path. cbn [parts]. pose proof (split_on_pieces s) as H.
  induction (split_on "/" s) as [|x l IH]; [reflexivity|].
  cbn [forallb List.filter] in *. apply andb_prop in H as [Hx Hl].
  destruct (is_component x) eqn:Ex; [|now apply IH].
  cbn [forallb]. now rewrite Ex, Hx, (IH Hl).
Qed.

Lemma truediv_proper q :
  proper q = true ->
  proper (truediv q "checkpoint") = true /\ proper (truediv q "logs") = true.
Proof.
  intros H. destruct (truediv_child q) as [-> ->]. unfold proper in *.
  cbn [parts]. rewrite !forallb_app, H. now split.
Qed.

(** Parsing the string of a path gives the path back. *)
Lemma Path_str_Path p : proper p = true -> Path (Path_str p) = p.
Proof.
  destruct p as [a l]. unfold proper, Path_str. cbn [anchored parts].
  intros H. destruct (filter_names _ H) as [Hf Hs].
  destruct a.
  - change ("/" +:+ join_slash l) with (String "/" (join_slash l)).
    unfold Path. cbn [starts_with_slash split_on].
    change (Ascii.eqb "/" "/") with true. cbn iota. cbn [List.filter].
    change (is_component "") with false. cbn iota.
    destruct l as [|x l]; [reflexivity|].
    now rewrite (split_join _ Hs), Hf.
  - destruct l as [|x l]; [reflexivity|].
    unfold Path. rewrite (split_join _ Hs) by discriminate. rewrite Hf.
    cbn [forallb] in H. apply andb_prop in H as [Hx _].
    apply andb_prop in Hx as [Hc Hn].
    now rewrite (join_not_anchored _ _ Hc Hn).
Qed.

End PathStrings.

(** X7. The directory names handed on as strings denote the directories
    that were made: parsed back, the trainer's root directory is the
    experiment directory, the logger's directory is its [logs] child and
    the checkpoint callback's directory is its [checkpoint] child, and both
    children are directories, seen from the working directory in which
    [fit] is invoked. *)
Theorem directories_handed_on cfg e :
  setup_ok cfg e = true ->
  exists tr m d w' c lr,
    main cfg (start e) = Trainer_fit tr m d w' /\
    tr_callbacks tr = [cb_checkpoint c; cb_lr_monitor lr] /\
    Path (tr_default_root_dir tr) = Path (exp_dir cfg) /\
    Path (save_dir (tr_logger tr))
    = truediv (Path (tr_default_root_dir tr)) "logs" /\
    dirpath c = truediv (Path (tr_default_root_dir tr)) "checkpoint" /\
    is_dir (fs (env w'))
           (resolve (cwd (env w')) (Path (save_dir (tr_logger tr)))) = true /\
    is_dir (fs (env w')) (resolve (cwd (env w')) (dirpath c)) = true.
Proof.
  intros H.
  destruct (setup_dirs _ _ H) as (Hdir & fs1 & fs2 & E1 & E2).
  assert (is_dir fs2 (resolve (original_cwd e) (checkpoint_dir cfg)) = true
          /\ is_dir fs2 (resolve (original_cwd e) (log_dir cfg)) = true)
    as [Hck Hlg].
  { destruct (truediv_child (Path (exp_dir cfg))) as [T1 T2].
    unfold checkpoint_dir, log_dir in *. split; apply is_dir_lookup.
    - apply (makedirs_keeps_dir _ _ _ _ _ E2).
      exact (mkdir_makes (fs e) _ (Path (exp_dir cfg)) "checkpoint" fs1
               eq_refl T1 E1).
    - exact (mkdir_makes fs1 _ (Path (exp_dir cfg)) "logs" fs2 eq_refl T2 E2). }
  pose proof (Path_str_Path _ (Path_proper (exp_dir cfg))) as Rexp.
  pose proof (Path_str_Path _
                (proj2 (truediv_proper _ (Path_proper (exp_dir cfg)))))
    as Rlog.
  destruct (cuda_is_available e) eqn:Hcuda;
    (eexists _, _, _, _, _, _; split; [run_main; reflexivity|];
     split; [reflexivity|]; simpl_world;
     cbn [tr_default_root_dir tr_logger save_dir dirpath];
     rewrite Rexp, Rlog; repeat split; assumption).
Qed.



(** X11. When the set-up cannot go through, the run ends with an exception
    at the top level: the exit status is 1. *)
Theorem setup_failure_exits_nonzero cfg e :
  setup_ok cfg e = false ->
  exit_status (fst (main cfg (start e))) = 1.
Proof.
  intros Hno.
  destruct (is_dir (fs e) (original_cwd e)) eqn:Hdir.
  - destruct (makedirs (fs e) (base (original_cwd e) (checkpoint_dir cfg))
                (parts (checkpoint_dir cfg))) as [x|fs1] eqn:E1.
    { run_main. reflexivity. }
    destruct (makedirs fs1 (base (original_cwd e) (log_dir cfg))
                (parts (log_dir cfg))) as [x|fs2] eqn:E2.
    { run_main. reflexivity. }
    exfalso. unfold setup_ok in Hno. rewrite Hdir in Hno.
    rewrite <- (creatable_makedirs _ _ _ _ (original_cwd e) (log_dir cfg) E1)
      in Hno.
    unfold creatable in Hno.
    rewrite (makedirs_not_file _ _ _ _ E1), (makedirs_not_file _ _ _ _ E2)
      in Hno.
    discriminate Hno.
  - unfold main, start. rewrite bind_get_original_cwd. simpl_world.
    match goal with
    | |- context [bind (os_chdir ?p) ?g ?w] =>
        destruct (bind_chdir_fails g w p Hdir) as [x ->]
    end.
    reflexivity.
Qed.

(** X12. An empty [exp_dir] means the invocation directory itself: the
    trainer's root directory is ["."], the logger writes to ["logs"], and
    [checkpoint] and [logs] are made directly in the invocation
    directory. *)
Theorem empty_exp_dir cfg e :
  exp_dir cfg = "" ->
  setup_ok cfg e = true ->
  exists tr m d w' c lr,
    main cfg (start e) = Trainer_fit tr m d w' /\
    tr_callbacks tr = [cb_checkpoint c; cb_lr_monitor lr] /\
    tr_default_root_dir tr = "." /\
    save_dir (tr_logger tr) = "logs" /\
    Path_str (dirpath c) = "checkpoint" /\
    fs (env w') !! (original_cwd e ++ ["checkpoint"]) = Some Dir /\
    fs (env w') !! (original_cwd e ++ ["logs"]) = Some Dir.
Proof.
  intros Hexp H.
  destruct (setup_dirs _ _ H) as (Hdir & fs1 & fs2 & E1 & E2).
  assert (fs2 !! resolve (original_cwd e) (checkpoint_dir cfg) = Some Dir
          /\ fs2 !! resolve (original_cwd e) (log_dir cfg) = Some Dir)
    as [Hck Hlg].
  { destruct (truediv_child (Path (exp_dir cfg))) as [T1 T2].
    unfold checkpoint_dir, log_dir in *. split.
    - apply (makedirs_keeps_dir _ _ _ _ _ E2).
      exact (mkdir_makes (fs e) _ (Path (exp_dir cfg)) "checkpoint" fs1
               eq_refl T1 E1).
    - exact (mkdir_makes fs1 _ (Path (exp_dir cfg)) "logs" fs2 eq_refl T2 E2). }
  unfold checkpoint_dir, log_dir in Hck, Hlg. rewrite Hexp in Hck, Hlg.
  change (resolve (original_cwd e) (truediv (Path "") "checkpoint"))
    with (original_cwd e ++ ["checkpoint"]) in Hck.
  change (resolve (original_cwd e) (truediv (Path "") "logs"))
    with (original_cwd e ++ ["logs"]) in Hlg.
  destruct (cuda_is_available e) eqn:Hcuda;
    (eexists _, _, _, _, _, _; split; [run_main; reflexivity|];
     split; [reflexivity|]; simpl_world;
     cbn [tr_default_root_dir tr_logger save_dir dirpath];
     rewrite Hexp; repeat split; assumption).
Qed.

End Orchestrator.

(** * The statements on a concrete run *)

Local Abbreviation sample_main cuda :=
  (main sample_valid_transform_list sample_alphabet sample_fit sample_config
        (start (sample_env cuda))).

Lemma valid_pipeline_strict_suffix_witness :
  augmentation_only sample_valid_transform_list (MotionBlur 10) /\
  exists t v,
    fst (get_train_transform sample_valid_transform_list (sample_world true))
    = inr t /\
    fst (get_valid_transform sample_valid_transform_list (sample_world false))
    = inr v /\
    steps (compose t) = aug_transforms ++ steps (compose v) /\
    ~ In (MotionBlur 10) (steps (compose v)).
Proof.
  assert (augmentation_only sample_valid_transform_list (MotionBlur 10)) as Ha.
  { split; simpl; [tauto|]. intros [X|[X|[X|[]]]]; discriminate X. }
  split; [exact Ha|].
  destruct (proj1 (valid_pipeline_strict_suffix sample_valid_transform_list
                     sample_alphabet sample_fit
                     (sample_world true) (sample_world false)))
    as (t & v & Ht & Hv & Hsteps & _ & _ & _ & Hno).
  exists t, v. split; [exact Ht|]. split; [exact Hv|]. split; [exact Hsteps|].
  apply Hno. exact Ha.
Defined.

Lemma checkpoint_callback_policy_witness :
  setup_ok sample_config (sample_env true) = true /\
  exists tr m d w' c lr,
    sample_main true = Trainer_fit sample_fit tr m d w' /\
    tr_callbacks tr = [cb_checkpoint c; cb_lr_monitor lr] /\
    In (call_new (obj_ModelCheckpoint c)) (calls w') /\
    monitor c = "12" /\
    every_n_train_steps c = val_check_interval sample_config + 1 /\
    save_top_k c = 2 /\
    mode c = "max" /\
    save_last c = true /\
    save_weights_only c = false.
Proof.
  split; [vm_compute; reflexivity|].
  apply (checkpoint_callback_policy sample_valid_transform_list
           sample_alphabet sample_fit sample_config (sample_env true)).
  vm_compute; reflexivity.
Defined.

Lemma metric_name_shared_witness :
  setup_ok sample_config (sample_env true) = true /\
  exists tr m d w' c lr,
    sample_main true = Trainer_fit sample_fit tr m d w' /\
    tr_callbacks tr = [cb_checkpoint c; cb_lr_monitor lr] /\
    wr_target_metric m = "12" /\
    monitor c = wr_target_metric m /\
    filename c = "{step}-{" +:+ monitor c +:+ ":.4f}" /\
    replacement_fields (filename c)
    = [("step", ""); (wr_target_metric m, ".4f")].
Proof.
  split; [vm_compute; reflexivity|].
  apply (metric_name_shared sample_valid_transform_list sample_alphabet
           sample_fit sample_config (sample_env true)).
  vm_compute; reflexivity.
Defined.

(** C3 as stated fails: the sample wrapper does not log ["12"], nothing in
    [main] checks it, and [fit] is invoked. *)
Lemma metric_guard_counterexample :
  ~ guards_metric_mismatch sample_valid_transform_list sample_alphabet
      sample_fit sample_logged_keys sample_config (sample_env true).
Proof.
  unfold guards_metric_mismatch. intros G.
  remember (calls (snd (sample_main true))) as log eqn:Elog.
  vm_compute in Elog. subst log.
  match type of G with
  | context [call_fit ?tr ?m ?d :: nil] =>
      match tr with
      | context [cb_checkpoint ?c] => specialize (G tr m d c)
      end
  end.
  lapply G; [clear G; intros G|].
  - lapply G; [clear G; intros G|].
    + cbn [monitor sample_logged_keys In] in G.
      destruct G as [X|[X|[]]]; discriminate X.
    + cbn [tr_callbacks In]. left. reflexivity.
  - cbn [In]. repeat first [left; reflexivity | right].
Qed.

Lemma no_metric_guard_witness :
  setup_ok sample_config (sample_env true) = true /\
  exists tr m d w',
    sample_main true = Trainer_fit sample_fit tr m d w' /\
    wr_target_metric m = "12" /\
    ~ In "12" (sample_logged_keys m) /\
    In (call_fit tr m d) (calls (snd (sample_main true))) /\
    exit_status (fst (sample_main true)) = 0.
Proof.
  split; [vm_compute; reflexivity|].
  destruct (no_metric_guard sample_valid_transform_list sample_alphabet
              sample_fit sample_logged_keys sample_config (sample_env true))
    as (tr & m & d & w' & c & lr & Hmain & _ & _ & Hwr & Hfit & _ & _ & Hexit).
  { vm_compute; reflexivity. }
  exists tr, m, d, w'. split; [exact Hmain|]. split; [exact Hwr|].
  split; [|split; [exact Hfit|]].
  - unfold sample_logged_keys. intros [X|[X|[]]]; discriminate X.
  - apply (Hexit tt (env w')). reflexivity.
Defined.

Lemma device_selection_witness :
  setup_ok sample_config (sample_env false) = true /\
  cuda_is_available (sample_env false) = false /\
  exists tr m d w',
    sample_main false = Trainer_fit sample_fit tr m d w' /\
    tr_gpus tr = None /\
    warnings (env w')
    = ["GPU is not available. Try train on CPU. It may will bew very slow"].
Proof.
  split; [vm_compute; reflexivity|]. split; [reflexivity|].
  destruct (device_selection sample_valid_transform_list sample_alphabet
              sample_fit sample_config (sample_env false))
    as (tr & m & d & w' & Hmain & Hno & _).
  { vm_compute; reflexivity. }
  destruct (Hno eq_refl) as (Hg & Hw & _).
  exists tr, m, d, w'. split; [exact Hmain|]. split; [exact Hg|]. exact Hw.
Defined.

Lemma experiment_tree_created_witness :
  setup_ok sample_config (sample_env true) = true /\
  exists tr m d w',
    sample_main true = Trainer_fit sample_fit tr m d w' /\
    is_dir (fs (env w')) ["home"; "user"; "plates"; "exp"; "crnn"; "checkpoint"]
    = true /\
    is_dir (fs (env w')) ["home"; "user"; "plates"; "exp"; "crnn"; "logs"]
    = true.
Proof.
  split; [vm_compute; reflexivity|].
  destruct (experiment_tree_created sample_valid_transform_list
              sample_alphabet sample_fit sample_config (sample_env true))
    as (tr & m & d & w' & Hmain & Hck & Hlg & _).
  { vm_compute; reflexivity. }
  exists tr, m, d, w'. split; [exact Hmain|]. split; [exact Hck|exact Hlg].
Defined.

Lemma seeding_once_before_consumers_witness :
  is_dir (fs (sample_env true)) (original_cwd (sample_env true)) = true /\
  List.filter is_seed_call (calls (snd (sample_main true)))
  = [call_seed_everything 42].
Proof.
  split; [vm_compute; reflexivity|].
  destruct (seeding_once_before_consumers sample_valid_transform_list
              sample_alphabet sample_fit sample_config (sample_env true))
    as (m & t & v & d & rest & _ & Hone).
  { vm_compute; reflexivity. }
  exact Hone.
Defined.

Lemma chdir_is_first_action_witness :
  setup_ok sample_config (sample_env true) = true /\
  exists tr m d w',
    sample_main true = Trainer_fit sample_fit tr m d w' /\
    cwd (env w') = ["home"; "user"; "plates"] /\
    fs (env w') !! ["home"; "user"; "plates"; "exp"; "crnn"; "checkpoint"]
    = Some Dir.
Proof.
  split; [vm_compute; reflexivity|].
  destruct (proj2 (chdir_is_first_action sample_valid_transform_list
                     sample_alphabet sample_fit sample_config
                     (sample_env true)))
    as (tr & m & d & w' & Hmain & Hcwd & Hck & _).
  { vm_compute; reflexivity. }
  exists tr, m, d, w'. split; [exact Hmain|]. split; [exact Hcwd|exact Hck].
Defined.

Lemma single_seed_witness :
  setup_ok sample_config (sample_env true) = true /\
  exists tr m d w',
    sample_main true = Trainer_fit sample_fit tr m d w' /\
    dm_seed d = 42 /\
    List.filter is_seed_call (calls w') = [call_seed_everything (dm_seed d)].
Proof.
  split; [vm_compute; reflexivity|].
  destruct (single_seed sample_valid_transform_list sample_alphabet
              sample_fit sample_config (sample_env true))
    as (tr & m & d & w' & Hmain & Hseed & Hone & _).
  { vm_compute; reflexivity. }
  exists tr, m, d, w'. split; [exact Hmain|]. split; [exact Hseed|exact Hone].
Defined.

(** * The further properties on concrete runs *)



Lemma checkpoint_dir_blocked_witness :
  is_dir (fs sample_env_blocked) (original_cwd sample_env_blocked) = true /\
  creatable (fs sample_env_blocked) (original_cwd sample_env_blocked)
            (checkpoint_dir sample_config) = false /\
  exists x,
    fst (main sample_valid_transform_list sample_alphabet sample_fit
              sample_config (start sample_env_blocked)) = inl x /\
    warnings (env (snd (main sample_valid_transform_list sample_alphabet
                             sample_fit sample_config
                             (start sample_env_blocked)))) = [].
Proof.
  split; [vm_compute; reflexivity|]. split; [vm_compute; reflexivity|].
  destruct (checkpoint_dir_blocked sample_valid_transform_list sample_alphabet
              sample_fit sample_config sample_env_blocked)
    as (x & m & t & v & d & Hx & _ & _ & Hw & _).
  { vm_compute; reflexivity. }
  { vm_compute; reflexivity. }
  exists x. split; [exact Hx|exact Hw].
Defined.

Lemma log_dir_blocked_witness :
  is_dir (fs sample_env_logs_file) (original_cwd sample_env_logs_file) = true /\
  creatable (fs sample_env_logs_file) (original_cwd sample_env_logs_file)
            (checkpoint_dir sample_config) = true /\
  creatable (fs sample_env_logs_file) (original_cwd sample_env_logs_file)
            (log_dir sample_config) = false /\
  exists x,
    fst (main sample_valid_transform_list sample_alphabet sample_fit
              sample_config (start sample_env_logs_file)) = inl x /\
    fs (env (snd (main sample_valid_transform_list sample_alphabet sample_fit
                       sample_config (start sample_env_logs_file))))
      !! resolve (original_cwd sample_env_logs_file)
                 (checkpoint_dir sample_config) = Some Dir.
Proof.
  split; [vm_compute; reflexivity|]. split; [vm_compute; reflexivity|].
  split; [vm_compute; reflexivity|].
  destruct (log_dir_blocked sample_valid_transform_list sample_alphabet
              sample_fit sample_config sample_env_logs_file)
    as (x & m & t & v & d & wr & c & lr & Hx & _ & _ & Hck & _).
  { vm_compute; reflexivity. }
  { vm_compute; reflexivity. }
  { vm_compute; reflexivity. }
  exists x. split; [exact Hx|exact Hck].
Defined.

Lemma fit_outcome_propagates_witness :
  setup_ok sample_config (sample_env true) = true /\
  fst (main sample_valid_transform_list sample_alphabet sample_fit_raising
            sample_config (start (sample_env true)))
  = inl (Exception "RuntimeError").
Proof.
  split; [vm_compute; reflexivity|].
  destruct (fit_outcome_propagates sample_valid_transform_list sample_alphabet
              sample_fit_raising sample_config (sample_env true))
    as (tr & m & d & w' & _ & Hfst & _).
  { vm_compute; reflexivity. }
  exact Hfst.
Defined.

Lemma tree_only_grows_witness :
  setup_ok sample_config (sample_env true) = true /\
  exists tr m d w',
    sample_main true = Trainer_fit sample_fit tr m d w' /\
    fs (env w') !! ["home"; "user"; "plates"; "train_ocr.py"] = Some File.
Proof.
  split; [vm_compute; reflexivity|].
  destruct (tree_only_grows sample_valid_transform_list sample_alphabet
              sample_fit sample_config (sample_env true))
    as (tr & m & d & w' & Hmain & Hgrow & _).
  { vm_compute; reflexivity. }
  exists tr, m, d, w'. split; [exact Hmain|].
  assert (fs (sample_env true) !! ["home"; "user"; "plates"; "train_ocr.py"]
          = Some File) as Hfile by (vm_compute; reflexivity).
  destruct (Hgrow ["home"; "user"; "plates"; "train_ocr.py"])
    as [->|(Hnone & _)]; [exact Hfile|congruence].
Defined.

Lemma directories_handed_on_witness :
  setup_ok sample_config (sample_env true) = true /\
  exists tr m d w',
    sample_main true = Trainer_fit sample_fit tr m d w' /\
    Path (save_dir (tr_logger tr))
    = truediv (Path (tr_default_root_dir tr)) "logs" /\
    is_dir (fs (env w'))
           (resolve (cwd (env w')) (Path (save_dir (tr_logger tr)))) = true.
Proof.
  split; [vm_compute; reflexivity|].
  destruct (directories_handed_on sample_valid_transform_list sample_alphabet
              sample_fit sample_config (sample_env true))
    as (tr & m & d & w' & c & lr & Hmain & _ & _ & Hlog & _ & Hdir & _).
  { vm_compute; reflexivity. }
  exists tr, m, d, w'. split; [exact Hmain|]. split; [exact Hlog|exact Hdir].
Defined.


Lemma cwd_is_irrelevant_witness :
  is_dir (fs (sample_env true)) (original_cwd (sample_env true)) = true /\
  main sample_valid_transform_list sample_alphabet sample_fit sample_config
       (start {| cwd := ["tmp"];
                 original_cwd := original_cwd (sample_env true);
                 fs := fs (sample_env true);
                 cuda_is_available := cuda_is_available (sample_env true);
                 warnings := warnings (sample_env true) |})
  = sample_main true.
Proof.
  split; [vm_compute; reflexivity|].
  apply (cwd_is_irrelevant sample_valid_transform_list sample_alphabet
           sample_fit sample_config (sample_env true) ["tmp"]).
  vm_compute; reflexivity.
Defined.


Lemma setup_failure_exits_nonzero_witness :
  setup_ok sample_config sample_env_blocked = false /\
  exit_status (fst (main sample_valid_transform_list sample_alphabet
                         sample_fit sample_config (start sample_env_blocked)))
  = 1.
Proof.
  split; [vm_compute; reflexivity|].
  apply (setup_failure_exits_nonzero sample_valid_transform_list
           sample_alphabet sample_fit sample_config sample_env_blocked).
  vm_compute; reflexivity.
Defined.

Lemma empty_exp_dir_witness :
  exp_dir sample_config_here = "" /\
  setup_ok sample_config_here (sample_env true) = true /\
  exists tr m d w',
    main sample_valid_transform_list sample_alphabet sample_fit
         sample_config_here (start (sample_env true))
    = Trainer_fit sample_fit tr m d w' /\
    tr_default_root_dir tr = "." /\
    fs (env w') !! ["home"; "user"; "plates"; "checkpoint"] = Some Dir.
Proof.
  split; [reflexivity|]. split; [vm_compute; reflexivity|].
  destruct (empty_exp_dir sample_valid_transform_list sample_alphabet
              sample_fit sample_config_here (sample_env true))
    as (tr & m & d & w' & c & lr & Hmain & _ & Hroot & _ & _ & Hck & _).
  { reflexivity. }
  { vm_compute; reflexivity. }
  exists tr, m, d, w'. split; [exact Hmain|]. split; [exact Hroot|exact Hck].
Defined.
